(** * Dataset Viewer deployment descriptor (modal/app.py)

    A shallow embedding of the descriptor: its module-level constants, the
    image recipe, the decorator arguments, the entry procedure [web] and the
    local summary procedure [main].  The hosting platform and the operating
    system are external collaborators: what they decide (whether a volume
    reload or a spawn fails, which files an ignore pattern matches) is a
    parameter of the development, never fixed by it. *)

From Stdlib Require Import String Ascii ZArith Lia DecimalString.
From stdpp Require Import base option list gmap strings.

Local Open Scope string_scope.
Local Open Scope list_scope.

(** ** Module-level constants *)

Definition APP_NAME : string := "dataset-viewer".
Definition VOLUME_NAME : string := "claimhawk-lora-training".

(** ** Python outcomes: a value or a raised exception *)

Record exn := Exception { exc_class : string; exc_msg : string }.

Inductive result (A : Type) :=
| Ok (a : A)
| Raise (e : exn).
Arguments Ok {A} a.
Arguments Raise {A} e.

(** ** Child processes and the log of external calls *)

(** What [subprocess.Popen(args, cwd=..., env=...)] is asked to start. *)
Record process := Process {
  argv : list string;
  cwd : string;
  penv : gmap string string
}.

(** The calls a procedure of this module can make to the platform and the
    operating system.  [CWait], [CPoll] and [CSleep] are the calls by which a
    procedure would block on a child, probe it, or pause before a retry. *)
Inductive call :=
| CVolumeReload (name : string)
| CPopen (p : process)
| CWait (pid : nat)
| CPoll (pid : nat)
| CSleep (seconds : nat).

Definition is_popen (c : call) : bool :=
  match c with CPopen _ => true | _ => false end.

Definition is_blocking_or_probe (c : call) : bool :=
  match c with CWait _ | CPoll _ | CSleep _ => true | _ => false end.

(** ** The runtime: a state and exception monad over the container's world *)

Section Runtime.

(** The state of the mounted volume is the platform's. *)
Context {V : Type}.

(** [datasets_volume.reload()]: the platform returns the refreshed snapshot,
    or raises; what it leaves behind when it raises is its own business. *)
Variable volume_reload : V → V * option exn.

(** Whether the operating system refuses to start a process ([OSError]),
    given the children that already exist. *)
Variable os_spawn : process → list process → option exn.

Record world := World {
  environ : gmap string string;   (* os.environ *)
  volume : V;                     (* snapshot mounted at /datasets *)
  procs : list process;           (* children spawned so far, oldest first *)
  stdout : string;                (* everything printed so far *)
  calls : list call               (* external calls so far, oldest first *)
}.

Definition M (A : Type) : Type := world → result A * world.

Definition ret {A} (a : A) : M A := λ w, (Ok a, w).

Definition bind {A B} (m : M A) (k : A → M B) : M B :=
  λ w, match m w with
       | (Ok a, w') => k a w'
       | (Raise e, w') => (Raise e, w')
       end.

Definition log (c : call) (w : world) : world :=
  World (environ w) (volume w) (procs w) (stdout w) (calls w ++ [c]).

(** [datasets_volume.reload()] *)
Definition Volume_reload (name : string) : M unit :=
  λ w, let w1 := log (CVolumeReload name) w in
       let '(v, err) := volume_reload (volume w1) in
       let w2 := World (environ w1) v (procs w1) (stdout w1) (calls w1) in
       match err with
       | Some e => (Raise e, w2)
       | None => (Ok tt, w2)
       end.

(** [os.environ] *)
Definition os_environ : M (gmap string string) :=
  λ w, (Ok (environ w), w).

(** [subprocess.Popen(args, cwd=cwd, env=env)]: returns the new child's
    index once the child is started; it does not wait for the child. *)
Definition subprocess_Popen (args : list string) (dir : string)
    (env : gmap string string) : M nat :=
  λ w, let p := Process args dir env in
       let w1 := log (CPopen p) w in
       match os_spawn p (procs w1) with
       | Some e => (Raise e, w1)
       | None =>
           (Ok (length (procs w1)),
            World (environ w1) (volume w1) (procs w1 ++ [p]) (stdout w1)
                  (calls w1))
       end.

(** [print(s)] *)
Definition print (s : string) : M unit :=
  λ w, (Ok tt,
        World (environ w) (volume w) (procs w)
              (stdout w +:+ s +:+ String (ascii_of_nat 10) EmptyString)
              (calls w)).

End Runtime.

Arguments world V : clear implicits.
Arguments M V A : clear implicits.

Notation "x <- m ;; k" := (bind m (λ x, k))
  (at level 62, m at next level, right associativity, only parsing).

(** ** The deployment descriptor *)

(** [datasets_volume = modal.Volume.from_name(VOLUME_NAME, create_if_missing=False)] *)
Record volume_ref := VolumeRef {
  vol_name : string;
  create_if_missing : bool
}.

Definition datasets_volume : volume_ref := VolumeRef VOLUME_NAME false.

(** [@modal.web_server(3000, startup_timeout=60)] *)
Record web_server_binding := WebServer {
  ws_port : N;
  startup_timeout : N
}.

Definition web_binding : web_server_binding := WebServer 3000 60.

(** [@app.function(image=image, volumes=..., memory=..., cpu=..., ...)] *)
Record function_config := FunctionConfig {
  volumes : list (string * volume_ref);   (* mount point, volume *)
  memory : N;
  cpu : N;
  allow_concurrent_inputs : N;
  container_idle_timeout : N
}.

Definition web_function : function_config :=
  FunctionConfig [("/datasets", datasets_volume)] 1024 1 10 300.

(** The [env=] argument of the spawn: [{**os.environ, "PORT": ..., ...}]. *)
Definition popen_env (inherited : gmap string string) : gmap string string :=
  <["NODE_ENV" := "production"]>
    (<["HOSTNAME" := "0.0.0.0"]>
       (<["PORT" := "3000"]> inherited)).

Definition server_process (inherited : gmap string string) : process :=
  Process ["npm"; "run"; "start"] "/app" (popen_env inherited).

Section Procedures.

Context {V : Type}.
Variable volume_reload : V → V * option exn.
Variable os_spawn : process → list process → option exn.

(** [def web() -> None] *)
Definition web : M V unit :=
  _ <- Volume_reload volume_reload (vol_name datasets_volume) ;;
  env <- os_environ ;;
  _ <- subprocess_Popen os_spawn ["npm"; "run"; "start"] "/app"
         (popen_env env) ;;
  ret tt.

(** [def main() -> None] *)
Definition main : M V unit :=
  _ <- print "Dataset Viewer deployed to Modal" ;;
  _ <- print ("Volume: " +:+ VOLUME_NAME) ;;
  print ("Access at: https://claimhawk--" +:+ APP_NAME +:+ "-web.modal.run").

(** [n] invocations of [web], one after the other, in one container; the
    first exception ends the sequence. *)
Fixpoint web_times (n : nat) : M V unit :=
  match n with
  | O => ret tt
  | S n' => _ <- web ;; web_times n'
  end.

End Procedures.

(** Calls issued and children spawned by running [m] from [w]. *)
Definition issued {V A} (m : M V A) (w : world V) : list call :=
  drop (length (calls w)) (calls (m w).2).

Definition spawned {V A} (m : M V A) (w : world V) : list process :=
  drop (length (procs w)) (procs (m w).2).

(** ** The image recipe *)

Inductive build_step :=
| DebianSlim (python_version : string)
| AptInstall (pkgs : list string)
| RunCommands (cmds : list string)
| CopyLocalDir (local_path remote_path : string) (ignore : list string).

Definition exclusion_list : list string :=
  [".next"; "node_modules"; ".git"; "modal"].

Definition image : list build_step :=
  [ DebianSlim "3.11";
    AptInstall ["nodejs"; "npm"; "curl"; "git"];
    RunCommands ["npm install -g npm@latest"];
    CopyLocalDir "." "/app" [".next"; "node_modules"; ".git"; "modal"];
    RunCommands ["cd /app && npm ci --legacy-peer-deps";
                 "cd /app && npm run build"] ].

(** A path below a directory, as its components: [["src"; "page.tsx"]]. *)
Definition path := list string.

Section ImageBuild.

(** The platform's matcher of an [ignore=] pattern against a path relative
    to the copied directory. *)
Variable matches : string → path → bool.

Definition excluded (ignore : list string) (p : path) : bool :=
  existsb (λ pat, matches pat p) ignore.

(** [.copy_local_dir(local, remote, ignore=...)]: every file of the local
    directory that no ignore pattern matches, placed below [remote]. *)
Definition copy_local_dir (local : list path) (remote : string)
    (ignore : list string) : list (string * path) :=
  map (pair remote) (List.filter (λ p, negb (excluded ignore p)) local).

(** The files the recipe copies from the local directory into the image. *)
Fixpoint copied_source_tree (local : list path) (steps : list build_step)
    : list (string * path) :=
  match steps with
  | [] => []
  | CopyLocalDir _ remote ignore :: rest =>
      copy_local_dir local remote ignore ++ copied_source_tree local rest
  | _ :: rest => copied_source_tree local rest
  end.

End ImageBuild.

(** A matcher for patterns that are plain names: the name matches the entry
    of that name at the top of the copied directory and all that is below. *)
Definition matches_name (pat : string) (p : path) : bool :=
  match p with
  | [] => false
  | c :: _ => String.eqb pat c
  end.

(** ** Resolving the volume reference *)

(** Platform primitive: looking a volume up by name among the volumes that
    exist; only a reference with [create_if_missing] set creates one. *)
Definition resolve_volume (r : volume_ref) (existing : gset string)
    : result string * gset string :=
  if decide (vol_name r ∈ existing) then (Ok (vol_name r), existing)
  else if create_if_missing r
       then (Ok (vol_name r), {[vol_name r]} ∪ existing)
       else (Raise (Exception "NotFoundError" (vol_name r)), existing).

(** ** Reading what was printed and passed *)

(** The port a server reads from its [PORT] variable. *)
Definition port_of_string (s : string) : option N :=
  N.of_uint <$> NilEmpty.uint_of_string s.

(** [s in t] on strings. *)
Definition occurs (s t : string) : bool :=
  match String.index 0 s t with
  | Some _ => true
  | None => false
  end.

Definition newline : string := String (ascii_of_nat 10) EmptyString.

(** The lines of a text in which every line ends with a newline. *)
Fixpoint split_lines (cur : string) (s : string) : list string :=
  match s with
  | EmptyString =>
      match cur with EmptyString => [] | _ => [cur] end
  | String c rest =>
      if Ascii.eqb c (ascii_of_nat 10)
      then cur :: split_lines EmptyString rest
      else split_lines (cur +:+ String c EmptyString) rest
  end.

(** What follows [prefix] in [s], when [s] starts with it. *)
Fixpoint strip_prefix (prefix s : string) : option string :=
  match prefix, s with
  | EmptyString, _ => Some s
  | String a p', String b s' =>
      if Ascii.eqb a b then strip_prefix p' s' else None
  | String _ _, EmptyString => None
  end.

(** The URL on the [Access at:] line of a printed summary. *)
Definition printed_url (out : string) : option string :=
  split_lines EmptyString out !! 2%nat ≫= strip_prefix "Access at: ".

(** The value on the [Volume:] line of a printed summary. *)
Definition printed_volume (out : string) : option string :=
  split_lines EmptyString out !! 1%nat ≫= strip_prefix "Volume: ".

(** ** Two platforms to run the procedures on *)

Definition reload_ok (v : nat) : nat * option exn := (S v, None).

Definition reload_fails (v : nat) : nat * option exn :=
  (v, Some (Exception "VolumeError" "reload failed")).

Definition spawn_ok (p : process) (running : list process) : option exn := None.

Definition spawn_fails (p : process) (running : list process) : option exn :=
  Some (Exception "FileNotFoundError" "npm").

Definition fresh_container : world nat := World ∅ 0%nat [] "" [].

Definition container_with_port : world nat :=
  World (<["PORT" := "8080"]> (<["HOME" := "/root"]> ∅)) 0%nat [] "" [].

(** * Properties *)

(** ** What one run of [web] does *)

Section WebRun.

Context {V : Type}.
Variable volume_reload : V → V * option exn.
Variable os_spawn : process → list process → option exn.

(** The three ways a run of [web] can end. *)
Lemma web_unfold (w : world V) :
  web volume_reload os_spawn w =
    let reload := CVolumeReload VOLUME_NAME in
    let p := server_process (environ w) in
    match volume_reload (volume w) with
    | (v, Some e) =>
        (Raise e,
         World (environ w) v (procs w) (stdout w) (calls w ++ [reload]))
    | (v, None) =>
        match os_spawn p (procs w) with
        | Some e =>
            (Raise e,
             World (environ w) v (procs w) (stdout w)
                   (calls w ++ [reload; CPopen p]))
        | None =>
            (Ok tt,
             World (environ w) v (procs w ++ [p]) (stdout w)
                   (calls w ++ [reload; CPopen p]))
        end
    end.
Proof.
  unfold web, bind, Volume_reload, os_environ, subprocess_Popen,
    ret, log, server_process; cbn.
  destruct (volume_reload (volume w)) as [v [e|]]; cbn; [done|].
  destruct (os_spawn _ (procs w)) as [e|]; cbn; by rewrite <- app_assoc.
Qed.

Local Abbreviation web := (web volume_reload os_spawn).

Lemma drop_own_length {A} (l k : list A) : drop (length l) (l ++ k) = k.
Proof. by rewrite drop_app_length. Qed.

(** The calls of a run: the reload, then at most the spawn. *)
Lemma web_issued (w : world V) :
  issued web w =
    CVolumeReload VOLUME_NAME ::
    match volume_reload (volume w) with
    | (_, Some _) => []
    | (_, None) => [CPopen (server_process (environ w))]
    end.
Proof.
  unfold issued. rewrite web_unfold; cbn.
  destruct (volume_reload (volume w)) as [v [e|]]; cbn.
  - apply drop_own_length.
  - destruct (os_spawn _ (procs w)); cbn; apply drop_own_length.
Qed.

(** The children of a run: the server, when the run ends normally. *)
Lemma web_spawned (w : world V) :
  spawned web w =
    match (web w).1 with
    | Ok _ => [server_process (environ w)]
    | Raise _ => []
    end.
Proof.
  unfold spawned. rewrite web_unfold; cbn.
  destruct (volume_reload (volume w)) as [v [e|]]; cbn.
  - by rewrite drop_all.
  - destruct (os_spawn _ (procs w)); cbn;
      [by rewrite drop_all | apply drop_own_length].
Qed.

Lemma web_ok_iff (w : world V) :
  (web w).1 = Ok tt ↔
  (volume_reload (volume w)).2 = None ∧
  os_spawn (server_process (environ w)) (procs w) = None.
Proof.
  rewrite web_unfold; cbn.
  destruct (volume_reload (volume w)) as [v [e|]]; cbn.
  - split; [done | by intros [? _]].
  - destruct (os_spawn _ (procs w)); cbn.
    + split; [done | by intros [_ ?]].
    + done.
Qed.

(** The world a normal return leaves. *)
Lemma web_ok_world (w : world V) :
  (web w).1 = Ok tt →
  (web w).2 =
    World (environ w) (volume_reload (volume w)).1
          (procs w ++ [server_process (environ w)]) (stdout w)
          (calls w ++ [CVolumeReload VOLUME_NAME;
                       CPopen (server_process (environ w))]).
Proof.
  rewrite web_unfold; cbn.
  destruct (volume_reload (volume w)) as [v [e|]]; cbn; [done|].
  by destruct (os_spawn _ (procs w)).
Qed.

Lemma issued_popen (w : world V) (p : process) :
  CPopen p ∈ issued web w → p = server_process (environ w).
Proof.
  rewrite web_issued.
  destruct (volume_reload (volume w)) as [v [e|]];
    rewrite ?elem_of_cons, elem_of_nil; intros H; intuition congruence.
Qed.

(** C1: every run of [web] first asks the platform for the latest snapshot
    of the bound volume and only then, if the reload did not raise, starts
    the server as a child process; the log of calls only grows by these, in
    this order; a normal return has made both, the child being spawned on the
    reloaded volume, and returns [None]. *)
Theorem web_reloads_then_spawns (w : world V) :
  calls (web w).2 = calls w ++ issued web w ∧
  (issued web w = [CVolumeReload VOLUME_NAME] ∨
   issued web w =
     [CVolumeReload VOLUME_NAME; CPopen (server_process (environ w))]) ∧
  (spawned web w ≠ [] →
     issued web w =
       [CVolumeReload VOLUME_NAME; CPopen (server_process (environ w))] ∧
     volume_reload (volume w) = (volume (web w).2, None)) ∧
  ((web w).1 = Ok tt ∨ ∃ e, (web w).1 = Raise e) ∧
  ((web w).1 = Ok tt → spawned web w = [server_process (environ w)]).
Proof.
  rewrite web_spawned, web_issued, web_unfold; cbn.
  destruct (volume_reload (volume w)) as [v [e|]]; cbn.
  - repeat split; eauto; done.
  - destruct (os_spawn _ (procs w)); cbn; repeat split; eauto; done.
Qed.

(** C2: the environment handed to the spawned server is the inherited one
    with [PORT], [HOSTNAME] and [NODE_ENV] set to their fixed values; every
    other variable is passed through as inherited, and no variable is added
    or removed beyond these three. *)
Theorem spawn_env_overrides (w : world V) (p : process) :
  CPopen p ∈ issued web w →
  penv p !! "PORT" = Some "3000" ∧
  penv p !! "HOSTNAME" = Some "0.0.0.0" ∧
  penv p !! "NODE_ENV" = Some "production" ∧
  (∀ k : string, k ≠ "PORT" → k ≠ "HOSTNAME" → k ≠ "NODE_ENV" →
     penv p !! k = environ w !! k) ∧
  dom (penv p) =
    dom (environ w) ∪ {["PORT"]} ∪ {["HOSTNAME"]} ∪ {["NODE_ENV"]}.
Proof.
  intros ->%issued_popen. cbn. unfold popen_env.
  split_and!.
  - by simplify_map_eq.
  - by simplify_map_eq.
  - by simplify_map_eq.
  - intros k ? ? ?. by simplify_map_eq.
  - rewrite !dom_insert_L.
    apply set_eq. intros k. rewrite !elem_of_union. tauto.
Qed.

(** C5: when the volume reload raises, [web] does not catch it: the same
    exception leaves [web], the spawn is never requested, no child exists
    that did not exist before, and nothing of the container but the volume
    the platform was reloading has changed. *)
Theorem reload_fault_propagates (w : world V) (v : V) (e : exn) :
  volume_reload (volume w) = (v, Some e) →
  (web w).1 = Raise e ∧
  issued web w = [CVolumeReload VOLUME_NAME] ∧
  (∀ p, CPopen p ∉ issued web w) ∧
  procs (web w).2 = procs w ∧
  environ (web w).2 = environ w ∧
  stdout (web w).2 = stdout w ∧
  volume (web w).2 = v.
Proof.
  intros H. rewrite web_issued, web_unfold, H; cbn.
  split_and!; try done.
  intros p. rewrite list_elem_of_singleton. congruence.
Qed.

(** C8: [web] is fire and forget: it makes no call that waits on the child,
    probes it or pauses; it requests the spawn at most once and the volume
    reload once; the spawn, when made, is its last call; and it returns
    normally exactly when the reload did not raise and the operating system
    accepted the spawn, whatever becomes of the child afterwards. *)
Theorem web_fire_and_forget (w : world V) :
  Forall (λ c, is_blocking_or_probe c = false) (issued web w) ∧
  (length (List.filter is_popen (issued web w)) ≤ 1)%nat ∧
  (length (issued web w) ≤ 2)%nat ∧
  ((web w).1 = Ok tt →
     last (issued web w) = Some (CPopen (server_process (environ w)))) ∧
  ((web w).1 = Ok tt ↔
     (volume_reload (volume w)).2 = None ∧
     os_spawn (server_process (environ w)) (procs w) = None).
Proof.
  split_and!; [| | | |apply web_ok_iff].
  - rewrite web_issued.
    destruct (volume_reload (volume w)) as [v [e|]]; repeat constructor.
  - rewrite web_issued.
    destruct (volume_reload (volume w)) as [v [e|]]; cbn; lia.
  - rewrite web_issued.
    destruct (volume_reload (volume w)) as [v [e|]]; cbn; lia.
  - intros [Hr _]%web_ok_iff. rewrite web_issued.
    destruct (volume_reload (volume w)) as [v [e|]]; cbn in *; done.
Qed.

(** C9: whatever the inherited environment says about [PORT], the port the
    spawned server reads from its environment is the port declared to the
    platform in the web-server binding. *)
Theorem spawn_port_agrees (w : world V) (p : process) :
  CPopen p ∈ issued web w →
  penv p !! "PORT" ≫= port_of_string = Some (ws_port web_binding).
Proof.
  intros ->%issued_popen. cbn. unfold popen_env.
  by simplify_map_eq.
Qed.

(** C4, as the code has it: [web] has no guard; every run that returns
    normally adds one more server child, so two such runs in one container
    leave two children that were both told to listen on port 3000. *)
Theorem web_spawns_on_every_run (w : world V) :
  (web w).1 = Ok tt →
  (web (web w).2).1 = Ok tt →
  procs (web (web w).2).2 =
    procs w ++ [server_process (environ w); server_process (environ w)] ∧
  Forall (λ p, penv p !! "PORT" = Some "3000")
    (spawned web w ++ spawned web (web w).2).
Proof.
  intros H1 H2.
  rewrite !web_spawned, H1, H2.
  rewrite (web_ok_world (web w).2 H2), (web_ok_world w H1); cbn.
  split; [by rewrite <- app_assoc|].
  repeat constructor; cbn; unfold popen_env; by simplify_map_eq.
Qed.

End WebRun.

(** ** [web] on the two platforms *)

Lemma popen_issued_on_ok (w : world nat) :
  CPopen (server_process (environ w)) ∈ issued (web reload_ok spawn_ok) w.
Proof.
  rewrite web_issued; cbn.
  apply elem_of_cons; right. by apply list_elem_of_singleton.
Qed.

Lemma spawn_env_overrides_witness :
  let p := server_process (environ container_with_port) in
  penv p !! "PORT" = Some "3000" ∧ penv p !! "HOME" = Some "/root".
Proof.
  intros p.
  destruct (spawn_env_overrides reload_ok spawn_ok container_with_port p
              (popen_issued_on_ok container_with_port))
    as (Hport & _ & _ & Hother & _).
  split; [exact Hport|].
  rewrite Hother; [reflexivity | discriminate..].
Defined.

Lemma reload_fault_propagates_witness :
  (web reload_fails spawn_ok fresh_container).1 =
    Raise (Exception "VolumeError" "reload failed") ∧
  procs (web reload_fails spawn_ok fresh_container).2 = [].
Proof.
  destruct (reload_fault_propagates reload_fails spawn_ok fresh_container
              0%nat (Exception "VolumeError" "reload failed") eq_refl)
    as (Hraise & _ & _ & Hprocs & _).
  split; [exact Hraise | exact Hprocs].
Defined.

Lemma spawn_port_agrees_witness :
  penv (server_process (environ container_with_port)) !! "PORT"
    ≫= port_of_string = Some 3000%N.
Proof.
  exact (spawn_port_agrees reload_ok spawn_ok container_with_port _
           (popen_issued_on_ok container_with_port)).
Defined.

Lemma web_reloads_then_spawns_witness :
  spawned (web reload_ok spawn_ok) fresh_container = [server_process ∅].
Proof.
  destruct (web_reloads_then_spawns reload_ok spawn_ok fresh_container)
    as (_ & _ & _ & _ & Hok).
  exact (Hok eq_refl).
Defined.

Lemma web_fire_and_forget_witness :
  last (issued (web reload_ok spawn_ok) fresh_container) =
    Some (CPopen (server_process ∅)).
Proof.
  destruct (web_fire_and_forget reload_ok spawn_ok fresh_container)
    as (_ & _ & _ & Hlast & _).
  exact (Hlast eq_refl).
Defined.

Lemma web_spawns_on_every_run_witness :
  procs (web reload_ok spawn_ok
           (web reload_ok spawn_ok fresh_container).2).2 =
    [server_process ∅; server_process ∅].
Proof.
  exact (proj1 (web_spawns_on_every_run reload_ok spawn_ok fresh_container
                  eq_refl eq_refl)).
Defined.

(** C4, as stated, fails: on a platform where the reload succeeds and the
    operating system starts what it is asked to start, a second run of [web]
    in the same container makes the same two calls as the first and leaves a
    second child told to listen on the port of the first. *)
Lemma second_web_spawns_again :
  let run := web reload_ok spawn_ok in
  let w1 := (run fresh_container).2 in
  let w2 := (run w1).2 in
  (run fresh_container).1 = Ok tt ∧
  (run w1).1 = Ok tt ∧
  procs w1 = [server_process ∅] ∧
  procs w2 = [server_process ∅; server_process ∅] ∧
  procs w2 ≠ procs w1 ∧
  issued run w1 = issued run fresh_container ∧
  penv (server_process ∅) !! "PORT" = Some "3000".
Proof.
  cbv zeta. split_and!; try reflexivity.
  intros H. apply (f_equal length) in H. vm_compute in H. discriminate.
Qed.

(** ** The local summary *)

Lemma string_app_assoc (s t u : string) :
  (s +:+ t) +:+ u = s +:+ (t +:+ u).
Proof.
  induction s as [|c s IH]; [reflexivity|].
  change (String c ((s +:+ t) +:+ u) = String c (s +:+ (t +:+ u))).
  by rewrite IH.
Qed.

(** What a run of [main] prints. *)
Lemma main_unfold {V} (w : world V) :
  main w =
    (Ok tt,
     World (environ w) (volume w) (procs w)
       (stdout w +:+
          ("Dataset Viewer deployed to Modal" +:+ newline +:+
           "Volume: claimhawk-lora-training" +:+ newline +:+
           "Access at: https://claimhawk--dataset-viewer-web.modal.run"
             +:+ newline))
       (calls w)).
Proof.
  unfold main, bind, print; cbn [fst snd environ volume procs stdout calls].
  do 2 f_equal. by rewrite !string_app_assoc.
Qed.

(** C3, as stated, fails on the volume name: the URL that [main] prints is
    built from the deployment name alone, and the volume name is no part of
    it. *)
Lemma volume_name_not_in_summary_url :
  printed_url (stdout (main fresh_container).2) =
    Some "https://claimhawk--dataset-viewer-web.modal.run" ∧
  occurs VOLUME_NAME "https://claimhawk--dataset-viewer-web.modal.run" = false.
Proof. split; reflexivity. Qed.

(** C3, as the code has it: [main] prints a fixed title, the volume name on
    the [Volume:] line and the URL on the [Access at:] line; both names are
    the configured, non-empty ones; the URL starts with the organization
    prefix, contains [dataset-viewer-web], and the deployment name is the
    name between the prefix and [-web]; the volume name is the value of the
    [Volume:] line and does not occur in the URL. *)
Theorem main_prints_summary {V} (w : world V) :
  ∃ text url : string,
    (main w).1 = Ok tt ∧
    stdout (main w).2 = stdout w +:+ text ∧
    split_lines "" text =
      ["Dataset Viewer deployed to Modal";
       "Volume: claimhawk-lora-training";
       "Access at: https://claimhawk--dataset-viewer-web.modal.run"] ∧
    APP_NAME = "dataset-viewer" ∧ APP_NAME ≠ "" ∧
    VOLUME_NAME = "claimhawk-lora-training" ∧ VOLUME_NAME ≠ "" ∧
    printed_volume text = Some VOLUME_NAME ∧
    printed_url text = Some url ∧
    url = "https://claimhawk--" +:+ APP_NAME +:+ "-web.modal.run" ∧
    strip_prefix "https://claimhawk--" url =
      Some (APP_NAME +:+ "-web.modal.run") ∧
    occurs "dataset-viewer-web" url = true ∧
    occurs APP_NAME text = true ∧
    occurs VOLUME_NAME text = true ∧
    occurs VOLUME_NAME url = false.
Proof.
  eexists _, _. rewrite main_unfold; cbn [fst snd stdout].
  split_and!; try reflexivity; discriminate.
Qed.

(** C10: [main] is deterministic: there is one text that every run of
    [main] prints, whatever the environment, the volume, the children and the
    earlier output of the container it runs in; every run returns [None] and
    changes nothing but the output. *)
Theorem main_deterministic :
  ∃ text : string, ∀ (V : Type) (w : world V),
    (main w).1 = Ok tt ∧
    stdout (main w).2 = stdout w +:+ text ∧
    environ (main w).2 = environ w ∧
    volume (main w).2 = volume w ∧
    procs (main w).2 = procs w ∧
    calls (main w).2 = calls w.
Proof.
  eexists. intros V w. rewrite main_unfold; cbn.
  split_and!; reflexivity.
Qed.

(** ** The copied source tree *)

Section CopiedTree.

Variable matches : string → path → bool.
Variable local : list path.

Lemma copied_source_tree_image :
  copied_source_tree matches local image =
    copy_local_dir matches local "/app" exclusion_list.
Proof. cbn. by rewrite app_nil_r. Qed.

Lemma elem_of_copy_local_dir (remote : string) (ignore : list string)
    (f : string * path) :
  f ∈ copy_local_dir matches local remote ignore ↔
  f.1 = remote ∧ f.2 ∈ local ∧ excluded matches ignore f.2 = false.
Proof.
  unfold copy_local_dir.
  rewrite list_elem_of_In, in_map_iff. split.
  - intros (p & <- & [Hp Hex]%filter_In); cbn.
    rewrite list_elem_of_In. by apply negb_true_iff in Hex.
  - destruct f as [r p]; cbn. intros (-> & Hp & Hex).
    exists p. split; [done|]. apply filter_In.
    rewrite <- list_elem_of_In. by rewrite Hex.
Qed.

Lemma excluded_by_name (ignore : list string) (name : string) (rest : path) :
  name ∈ ignore →
  matches name (name :: rest) = true →
  excluded matches ignore (name :: rest) = true.
Proof.
  intros Hin Hm. unfold excluded. apply existsb_exists.
  exists name. by rewrite <- list_elem_of_In.
Qed.

(** C6: provided the platform's matcher matches each name of the exclusion
    list against the entry of that name at the top of the copied directory
    and all that is below it, no such path is among the files the recipe
    copies below [/app]; what is copied is local, lands below [/app] and is
    matched by no pattern of the list. *)
Theorem excluded_paths_not_copied (name : string) (rest : path) :
  (∀ n r, n ∈ exclusion_list → matches n (n :: r) = true) →
  name ∈ exclusion_list →
  (("/app", name :: rest) ∉ copied_source_tree matches local image) ∧
  (∀ f, f ∈ copied_source_tree matches local image →
        f.1 = "/app" ∧ f.2 ∈ local ∧
        excluded matches exclusion_list f.2 = false).
Proof.
  intros Hm Hin. rewrite copied_source_tree_image. split.
  - intros H. apply elem_of_copy_local_dir in H as (_ & _ & Hex).
    cbn [snd] in Hex.
    rewrite (excluded_by_name exclusion_list name rest) in Hex; auto.
    discriminate.
  - intros f Hf. by apply elem_of_copy_local_dir.
Qed.

End CopiedTree.

Lemma matches_name_top (n : string) (r : path) : matches_name n (n :: r) = true.
Proof. cbn. apply String.eqb_refl. Qed.

Lemma excluded_paths_not_copied_witness :
  ("/app", [".git"; "HEAD"]) ∉
    copied_source_tree matches_name
      [[".git"; "HEAD"]; ["package.json"]; ["node_modules"; "next"; "index.js"]]
      image.
Proof.
  refine (proj1 (excluded_paths_not_copied matches_name _ ".git" ["HEAD"]
                   (λ n r _, matches_name_top n r) _)).
  unfold exclusion_list.
  apply list_elem_of_further, list_elem_of_further, list_elem_of_here.
Defined.

(** ** The volume binding *)

(** C7: the descriptor's volume reference has creation disabled: resolving
    it never changes the set of volumes that exist, gives the volume when one
    of that name exists, and raises when none does. *)
Theorem volume_must_exist (existing : gset string) :
  vol_name datasets_volume = VOLUME_NAME ∧
  create_if_missing datasets_volume = false ∧
  (resolve_volume datasets_volume existing).2 = existing ∧
  (VOLUME_NAME ∈ existing →
     (resolve_volume datasets_volume existing).1 = Ok VOLUME_NAME) ∧
  (VOLUME_NAME ∉ existing →
     (resolve_volume datasets_volume existing).1 =
       Raise (Exception "NotFoundError" VOLUME_NAME)).
Proof.
  unfold resolve_volume; cbn.
  destruct (decide (VOLUME_NAME ∈ existing)); cbn; split_and!; done.
Qed.

Lemma volume_must_exist_witness :
  resolve_volume datasets_volume {["some-other-volume"]} =
    (Raise (Exception "NotFoundError" VOLUME_NAME), {["some-other-volume"]}).
Proof.
  destruct (volume_must_exist {["some-other-volume"]})
    as (_ & _ & H2 & _ & H1).
  apply injective_projections; cbn.
  - apply H1. intros ?%elem_of_singleton. discriminate.
  - exact H2.
Defined.

(** A reference with creation enabled would create the missing volume. *)
Example creating_reference_creates :
  resolve_volume (VolumeRef VOLUME_NAME true) ∅ =
    (Ok VOLUME_NAME, {[VOLUME_NAME]} ∪ ∅).
Proof. reflexivity. Qed.

(** * Further properties of the entry procedure *)

Section WebFrame.

Context {V : Type}.
Variable volume_reload : V → V * option exn.
Variable os_spawn : process → list process → option exn.

Lemma web_times_S (n : nat) (w : world V) :
  web_times volume_reload os_spawn (S n) w =
    match web volume_reload os_spawn w with
    | (Ok _, w') => web_times volume_reload os_spawn n w'
    | (Raise e, w') => (Raise e, w')
    end.
Proof. reflexivity. Qed.

Local Abbreviation web := (web volume_reload os_spawn).
Local Abbreviation web_times := (web_times volume_reload os_spawn).

Lemma web_environ (w : world V) : environ (web w).2 = environ w.
Proof.
  rewrite web_unfold; cbn.
  destruct (volume_reload (volume w)) as [v [e|]]; cbn; [done|].
  by destruct (os_spawn _ (procs w)).
Qed.

Lemma web_procs (w : world V) :
  procs (web w).2 =
    procs w ++ match (web w).1 with
               | Ok _ => [server_process (environ w)]
               | Raise _ => []
               end.
Proof.
  rewrite web_unfold; cbn.
  destruct (volume_reload (volume w)) as [v [e|]]; cbn;
    [by rewrite app_nil_r|].
  destruct (os_spawn _ (procs w)); cbn; by rewrite ?app_nil_r.
Qed.

Lemma spawned_server (w : world V) (p : process) :
  p ∈ spawned web w → p = server_process (environ w).
Proof.
  rewrite web_spawned. destruct (web w).1.
  - by intros ->%list_elem_of_singleton.
  - by intros ?%elem_of_nil.
Qed.

(** X1: when the reload succeeds and the operating system refuses the
    spawn, [web] does not catch that either: the same exception leaves
    [web], no child is added, and the reload that came first is not undone:
    the volume stays at its refreshed snapshot. *)
Theorem spawn_fault_propagates (w : world V) (v : V) (e : exn) :
  volume_reload (volume w) = (v, None) →
  os_spawn (server_process (environ w)) (procs w) = Some e →
  (web w).1 = Raise e ∧
  procs (web w).2 = procs w ∧
  volume (web w).2 = v ∧
  issued web w =
    [CVolumeReload VOLUME_NAME; CPopen (server_process (environ w))].
Proof.
  intros Hr Hs. rewrite web_issued, web_unfold, Hr; cbn. by rewrite Hs.
Qed.

(** X2: whatever the outcome, [web] leaves [os.environ] as it was (the
    overrides go into the child's environment only), prints nothing, never
    removes or reorders a child or a logged call, and leaves the volume as
    the platform's reload left it. *)
Theorem web_frame (w : world V) :
  environ (web w).2 = environ w ∧
  stdout (web w).2 = stdout w ∧
  procs w `prefix_of` procs (web w).2 ∧
  calls w `prefix_of` calls (web w).2 ∧
  volume (web w).2 = (volume_reload (volume w)).1.
Proof.
  rewrite web_unfold; cbn.
  destruct (volume_reload (volume w)) as [v [e|]]; cbn.
  - split_and!; try done; by eexists.
  - destruct (os_spawn _ (procs w)); cbn;
      split_and!; try done; by eexists.
Qed.


End WebFrame.

Lemma spawn_fault_propagates_witness :
  (web reload_ok spawn_fails fresh_container).1 =
    Raise (Exception "FileNotFoundError" "npm") ∧
  volume (web reload_ok spawn_fails fresh_container).2 = 1%nat.
Proof.
  destruct (spawn_fault_propagates reload_ok spawn_fails fresh_container
              1%nat (Exception "FileNotFoundError" "npm") eq_refl eq_refl)
    as (Hraise & _ & Hvol & _).
  split; [exact Hraise | exact Hvol].
Defined.


(** * The environment of the spawned server *)

Lemma popen_env_lookup (e : gmap string string) :
  popen_env e !! "PORT" = Some "3000" ∧
  popen_env e !! "HOSTNAME" = Some "0.0.0.0" ∧
  popen_env e !! "NODE_ENV" = Some "production".
Proof. unfold popen_env. split_and!; by simplify_map_eq. Qed.

(** X4: the child's environment has at least the three overrides, at least
    as many variables as the inherited one and at most three more; it has
    exactly three more when none of the three was inherited, and from an
    empty environment exactly the three. *)
Theorem popen_env_size (e : gmap string string) :
  (3 ≤ size (popen_env e))%nat ∧
  (size e ≤ size (popen_env e))%nat ∧
  (size (popen_env e) ≤ size e + 3)%nat ∧
  (size (popen_env e) = size e + 3 ↔
     e !! "PORT" = None ∧ e !! "HOSTNAME" = None ∧ e !! "NODE_ENV" = None)%nat.
Proof.
  assert (Hsize : size (popen_env e) =
            ((if e !! "NODE_ENV" is Some _ then 0 else 1) +
             ((if e !! "HOSTNAME" is Some _ then 0 else 1) +
              ((if e !! "PORT" is Some _ then 0 else 1) + size e)))%nat).
  { unfold popen_env. rewrite !map_size_insert.
    rewrite !lookup_insert_ne by discriminate.
    by destruct (e !! "NODE_ENV"), (e !! "HOSTNAME"), (e !! "PORT"). }
  assert (Hthree : ({["PORT"; "HOSTNAME"; "NODE_ENV"]} : gset string)
                     ⊆ dom (popen_env e)).
  { destruct (popen_env_lookup e) as (H1 & H2 & H3).
    intros k. rewrite !elem_of_union, !elem_of_singleton, elem_of_dom.
    intros [[->| ->]| ->]; eauto. }
  apply subseteq_size in Hthree. rewrite size_dom in Hthree.
  change (size ({["PORT"; "HOSTNAME"; "NODE_ENV"]} : gset string))
    with 3%nat in Hthree.
  split; [exact Hthree|]. clear Hthree. rewrite Hsize.
  destruct (e !! "NODE_ENV"), (e !! "HOSTNAME"), (e !! "PORT");
    (split_and!; [lia | lia |]);
    (split; [intros ?; try lia; done | intros (? & ? & ?); try discriminate; lia]).
Qed.

(** X5: the overrides change nothing exactly when the inherited environment
    already has the three variables at their fixed values; in particular,
    applying them a second time changes nothing. *)
Theorem popen_env_fixed_point (e : gmap string string) :
  (popen_env e = e ↔
     e !! "PORT" = Some "3000" ∧
     e !! "HOSTNAME" = Some "0.0.0.0" ∧
     e !! "NODE_ENV" = Some "production") ∧
  popen_env (popen_env e) = popen_env e.
Proof.
  assert (Hfix : ∀ m : gmap string string,
            m !! "PORT" = Some "3000" ∧
            m !! "HOSTNAME" = Some "0.0.0.0" ∧
            m !! "NODE_ENV" = Some "production" → popen_env m = m).
  { intros m (H1 & H2 & H3). unfold popen_env.
    by rewrite (insert_id m "PORT"), (insert_id m "HOSTNAME"),
         (insert_id m "NODE_ENV"). }
  split; [split|].
  - intros <-. apply popen_env_lookup.
  - apply Hfix.
  - apply Hfix, popen_env_lookup.
Qed.

(** * The descriptor's parts agree *)

Section Agreement.

Context {V : Type}.
Variable volume_reload : V → V * option exn.
Variable os_spawn : process → list process → option exn.

Local Abbreviation web := (web volume_reload os_spawn).

(** X6: every child that [web] spawns runs [npm run start] in the directory
    into which the image recipe copied the application's source. *)
Theorem server_runs_in_copied_tree (w : world V) (p : process) :
  p ∈ spawned web w →
  argv p = ["npm"; "run"; "start"] ∧
  ∃ local_path ignore, CopyLocalDir local_path (cwd p) ignore ∈ image.
Proof.
  intros ->%spawned_server. split; [done|].
  exists ".", exclusion_list. cbn. unfold image.
  do 3 apply list_elem_of_further. apply list_elem_of_here.
Qed.

(** X7: the volume that [web] asks the platform to reload is a volume that
    the function's configuration mounts into the container, at [/datasets]. *)
Theorem reloaded_volume_is_mounted (w : world V) (name : string) :
  CVolumeReload name ∈ issued web w →
  ∃ r, ("/datasets", r) ∈ volumes web_function ∧ vol_name r = name.
Proof.
  rewrite web_issued. intros H.
  exists datasets_volume. split; [apply list_elem_of_here|].
  destruct (volume_reload (volume w)) as [v [e|]];
    rewrite ?elem_of_cons, elem_of_nil in H; cbn; intuition congruence.
Qed.

End Agreement.

Lemma spawned_on_ok (w : world nat) :
  server_process (environ w) ∈ spawned (web reload_ok spawn_ok) w.
Proof. rewrite web_spawned; cbn. apply list_elem_of_here. Qed.

Lemma server_runs_in_copied_tree_witness :
  argv (server_process ∅) = ["npm"; "run"; "start"].
Proof.
  exact (proj1 (server_runs_in_copied_tree reload_ok spawn_ok fresh_container
                  _ (spawned_on_ok fresh_container))).
Defined.

Lemma reload_issued (w : world nat) :
  CVolumeReload VOLUME_NAME ∈ issued (web reload_fails spawn_ok) w.
Proof. rewrite web_issued; cbn. apply list_elem_of_here. Qed.

Lemma reloaded_volume_is_mounted_witness :
  ∃ r, ("/datasets", r) ∈ volumes web_function ∧ vol_name r = VOLUME_NAME.
Proof.
  exact (reloaded_volume_is_mounted reload_fails spawn_ok fresh_container
           VOLUME_NAME (reload_issued fresh_container)).
Defined.

(** * More on the copied source tree *)

Section CopiedTreeMore.

Variable matches : string → path → bool.
Variable local : list path.

(** X8: no source file is lost: a local file that none of the four patterns
    matches is in the image, below [/app], at its relative path. *)
Theorem unexcluded_files_copied (p : path) :
  p ∈ local →
  (∀ pat, pat ∈ exclusion_list → matches pat p = false) →
  ("/app", p) ∈ copied_source_tree matches local image.
Proof.
  intros Hp Hno. rewrite copied_source_tree_image.
  apply elem_of_copy_local_dir; cbn [fst snd]. split_and!; [done..|].
  unfold excluded. apply not_true_is_false.
  intros (pat & Hin & Hm)%existsb_exists.
  apply list_elem_of_In in Hin. rewrite (Hno pat Hin) in Hm. discriminate.
Qed.


End CopiedTreeMore.

Lemma unexcluded_files_copied_witness :
  ("/app", ["src"; "app"; "page.tsx"]) ∈
    copied_source_tree matches_name
      [[".git"; "HEAD"]; ["src"; "app"; "page.tsx"]] image.
Proof.
  apply unexcluded_files_copied.
  - apply list_elem_of_further, list_elem_of_here.
  - intros pat Hin. unfold exclusion_list in Hin.
    rewrite !elem_of_cons, elem_of_nil in Hin.
    destruct Hin as [->|[->|[->|[->|[]]]]]; reflexivity.
Defined.


(** * What [web] depends on *)

Section WebReads.

Context {V : Type}.
Variable volume_reload : V → V * option exn.
Variable os_spawn : process → list process → option exn.

Local Abbreviation web := (web volume_reload os_spawn).


End WebReads.

